(** * community.cockroachdb: the [cockroachdb_db] and [cockroachdb_query] modules

    A shallow embedding of [plugins/modules/cockroachdb_db.py] and
    [plugins/modules/cockroachdb_query.py].  The database driver (psycopg2),
    the connection helper of [module_utils] and Ansible's [AnsibleModule] are
    external collaborators: the driver and the connection are an interface
    ([driver]) every definition is parametric in, and the one framework check
    the modules rely on ([mutually_exclusive]) is written out in
    [Module Ansible]. *)

From Stdlib Require Import String Ascii List Bool ZArith Lia.
From Stdlib Require Import DecimalString Floats SpecFloat.
Import ListNotations.
Open Scope string_scope.

(** ** Python runtime: strings, truthiness, exceptions *)

Module Py.

(** The double-quote character (code 34) of the statements' literals. *)
Definition dquote : string := String (ascii_of_nat 34) EmptyString.

(** [if s:] on a value that is [None] or a [str]. *)
Definition truthy_str (o : option string) : bool :=
  match o with
  | None => false
  | Some s => negb (s =? EmptyString)
  end.

(** ['%s' % o] on a value that is [None] or a [str]. *)
Definition fmt_s (o : option string) : string :=
  match o with
  | None => "None"
  | Some s => s
  end.

(** [if l:] on a value that is [None] or a list / dict. *)
Definition truthy_seq {A : Type} (o : option (list A)) : bool :=
  match o with
  | None | Some [] => false
  | Some (_ :: _) => true
  end.

(** [o is not None]. *)
Definition given {A : Type} (o : option A) : bool :=
  match o with
  | None => false
  | Some _ => true
  end.

(** The two classes of exception the modules tell apart:
    [psycopg2.ProgrammingError] and every other subclass of [Exception]. *)
Inductive exn_class := ProgrammingError | OtherException.

(** An exception object; [to_native] is [to_native(e)]. *)
Record exn := { cls : exn_class; to_native : string }.

(** What travels up the stack: an [Exception], which [except Exception]
    catches, or the [SystemExit] of [module.fail_json(msg=...)], which it
    does not. *)
Inductive raised :=
| Exn (e : exn)
| Fail_json (msg : string).

(** A computation over a world [W] that returns or raises; the world a
    raising computation leaves behind is kept. *)
Definition M (W A : Type) : Type := W -> W * (raised + A).

Definition ret {W A} (a : A) : M W A := fun w => (w, inr a).

Definition bind {W A B} (c : M W A) (k : A -> M W B) : M W B :=
  fun w =>
    match c w with
    | (w', inr a) => k a w'
    | (w', inl r) => (w', inl r)
    end.

Definition raise {W A} (r : raised) : M W A := fun w => (w, inl r).

(** [module.fail_json(msg=msg)]. *)
Definition fail_json {W A} (msg : string) : M W A := raise (Fail_json msg).

(** [try: c  except Exception as e: h e]. *)
Definition try_except {W A} (c : M W A) (h : exn -> M W A) : M W A :=
  fun w =>
    match c w with
    | (w', inl (Exn e)) => h e w'
    | other => other
    end.

End Py.

Import Py.

Declare Scope py_scope.
Delimit Scope py_scope with py.
Notation "x <- c ;; k" := (bind c (fun x => k))
  (at level 61, c at next level, right associativity) : py_scope.
Notation "c ;; k" := (bind c (fun _ => k))
  (at level 61, right associativity) : py_scope.
Open Scope py_scope.

(** ** The part of Ansible's argument validation the modules rely on *)

Module Ansible.

(** [count_terms(terms, parameters)]: how many distinct [terms] are keys of
    the supplied parameters. *)
Definition count_terms (terms supplied : list string) : nat :=
  length (filter (fun t => existsb (String.eqb t) supplied)
                 (nodup string_dec terms)).

(** [check_mutually_exclusive(terms, parameters)]: the groups of which more
    than one member was supplied. *)
Definition check_mutually_exclusive
    (checks : list (list string)) (supplied : list string) : list (list string) :=
  filter (fun check => Nat.ltb 1 (count_terms check supplied)) checks.

(** [AnsibleModule(argument_spec, mutually_exclusive=...)]: the constructor
    calls [fail_json] when a group is violated. *)
Definition AnsibleModule
    (mutually_exclusive : list (list string)) (supplied : list string)
  : raised + unit :=
  match check_mutually_exclusive mutually_exclusive supplied with
  | [] => inr tt
  | bad => inl (Fail_json ("parameters are mutually exclusive: "
                           ++ String.concat ", " (map (String.concat "|") bad)))
  end.

End Ansible.

(** ** [cockroachdb_db]: create, modify or delete a database *)

Module Db.

(** A row of [SHOW DATABASES] (the cursor is opened with [rows_type='dict']);
    field [d_x] is [d['x']]. *)
Record db_row := {
  d_database_name : string;
  d_owner : string;
  d_primary_region : option string;
  d_regions : list string;
  d_survival_goal : option string
}.

(** What the module asks of the connection, in the order of a run. *)
Inductive event :=
| Connect
| Execute (query : string)
| Fetchall
| CursorClose
| ConnClose.

(** The server seen through one connection. [connect] stands for
    [CockroachDBServer(module).connect(...)] and [conn.cursor()]. *)
Record driver := {
  server : Type;
  connect : server -> server * (raised + unit);
  execute : string -> server -> server * (exn + unit);
  fetchall : server -> server * (exn + list db_row);
  cursor_close : server -> server * (exn + unit);
  conn_close : server -> server * (exn + unit)
}.

Inductive state := present | absent.

(** [module.params]. *)
Record params := {
  p_name : string;
  p_state : state;
  p_owner : option string;
  p_target : option string
}.

Record module := { check_mode : bool; module_params : params }.

(** An entry of [executed_statements]: the query and its parameters, which
    this module always leaves empty ([()]). *)
Definition statement : Type := string * list string.

(** The fields of a [CockroachDBDatabase] object. *)
Record database := {
  name : string;
  exists_ : bool;
  primary_region : option string;
  regions : list string;
  survive_failure : option string;
  owner : option string
}.

(** The object [__init__] sets up before it fetches. *)
Definition defaults (nm : string) : database :=
  {| name := nm; exists_ := false; primary_region := None;
     regions := []; survive_failure := None; owner := None |}.

Section WithDriver.

Variable D : driver.

(** The server, what was asked of it so far, and the module-level list
    [executed_statements]. *)
Record world := {
  srv : server D;
  trace : list event;
  executed_statements : list statement
}.

Definition call {A} (ev : event) (op : server D -> server D * (exn + A))
  : M world A :=
  fun w =>
    let (s', r) := op (srv w) in
    ({| srv := s'; trace := trace w ++ [ev];
        executed_statements := executed_statements w |},
     match r with inl e => inl (Exn e) | inr a => inr a end).

Definition cursor_execute (query : string) : M world unit :=
  call (Execute query) (execute D query).

Definition cursor_fetchall : M world (list db_row) :=
  call Fetchall (fetchall D).

(** [executed_statements.append(st)]. *)
Definition append_statement (st : statement) : M world unit :=
  fun w =>
    ({| srv := srv w; trace := trace w;
        executed_statements := executed_statements w ++ [st] |}, inr tt).

(** The body of the [for d in res] loop of [__fetch_info]. *)
Definition fetch_info_step (self : database) (d : db_row) : database :=
  if d_database_name d =? name self then
    {| name := name self;
       exists_ := true;
       primary_region := d_primary_region d;
       regions := d_regions d;
       survive_failure := d_survival_goal d;
       owner := Some (d_owner d) |}
  else self.

Definition fetch_info (self : database) : M world database :=
  cursor_execute "SHOW DATABASES" ;;
  res <- cursor_fetchall ;;
  ret (fold_left fetch_info_step res self).

(** [CockroachDBDatabase.__init__]: the defaults, then [__fetch_info]. *)
Definition init (nm : string) : M world database :=
  fetch_info (defaults nm).

(** The statement text [create] builds. *)
Definition create_query (m : module) (self : database) : string :=
  let query := "CREATE DATABASE " ++ dquote ++ name self ++ dquote in
  if truthy_str (p_owner (module_params m))
  then query ++ "OWNER " ++ fmt_s (p_owner (module_params m))
  else query.

Definition create (m : module) (self : database) : M world unit :=
  if check_mode m then ret tt
  else
    let query := create_query m self in
    cursor_execute query ;;
    append_statement (query, []).

Definition drop_query (self : database) : string :=
  "DROP DATABASE " ++ dquote ++ name self ++ dquote.

(** [drop] returns [True] in check mode and [None] otherwise. *)
Definition drop (m : module) (self : database) : M world (option bool) :=
  if check_mode m then ret (Some true)
  else
    let query := drop_query self in
    cursor_execute query ;;
    append_statement (query, []) ;;
    ret None.

Definition change_owner_query (self : database) (new_owner : string) : string :=
  "ALTER DATABASE " ++ dquote ++ name self ++ dquote ++ " OWNER TO " ++ new_owner.

Definition change_owner (self : database) (new_owner : string) : M world unit :=
  let query := change_owner_query self new_owner in
  cursor_execute query ;;
  append_statement (query, []).

Definition modify (m : module) (self : database)
    (owner target : option string) : M world bool :=
  if truthy_str owner then
    if check_mode m then ret true
    else change_owner self (fmt_s owner) ;; ret true
  else ret false.

(** The keyword arguments of [module.exit_json]. *)
Record result := {
  changed : bool;
  r_executed_statements : list statement
}.

(** From the instantiation of the main object to [exit_json]. *)
Definition job (m : module) : M world result :=
  let p := module_params m in
  database <- init (p_name p) ;;
  changed <-
    match p_state p with
    | present =>
        if negb (exists_ database)
        then create m database ;; ret true
        else modify m database (p_owner p) (p_target p)
    | absent =>
        if exists_ database
        then drop m database ;; ret true
        else ret false
    end ;;
  call CursorClose (cursor_close D) ;;
  call ConnClose (conn_close D) ;;
  fun w => (w, inr {| changed := changed;
                      r_executed_statements := executed_statements w |}).

(** How an invocation ends: [exit_json] with its arguments, or an exception
    or [fail_json] that leaves the process. *)
Inductive outcome :=
| Exit_json (r : result)
| Aborted (r : raised).

(** One run of the module: the server afterwards, everything asked of the
    connection, and how the run ended. *)
Record run := {
  after : server D;
  asked : list event;
  ended : outcome
}.

Definition main (m : module) (s : server D) : run :=
  match connect D s with
  | (s1, inl r) => {| after := s1; asked := [Connect]; ended := Aborted r |}
  | (s1, inr _) =>
      match job m {| srv := s1; trace := [Connect]; executed_statements := [] |} with
      | (w, inl r) => {| after := srv w; asked := trace w; ended := Aborted r |}
      | (w, inr res) => {| after := srv w; asked := trace w; ended := Exit_json res |}
      end
  end.

End WithDriver.

End Db.

(** ** [cockroachdb_query]: run a query and normalise its rows *)

Module Query.

(** The value domains the module only passes to the Python runtime:
    [decimal.Decimal], [datetime.timedelta] and [float], with the two
    built-in conversions [convert_to_supported] calls. *)
Class runtime := {
  decimal : Type;
  timedelta : Type;
  pyfloat : Type;
  float : decimal -> pyfloat;
  str : timedelta -> string
}.

Section WithRuntime.

Context {R : runtime}.

(** A value the driver hands over in a row, by its exact Python type. *)
Inductive value :=
| VNone
| VBool (b : bool)
| VInt (z : Z)
| VFloat (f : pyfloat)
| VStr (s : string)
| VDecimal (d : decimal)
| VTimedelta (t : timedelta)
| VOther (repr : string).

(** A row is the driver's tuple until the loop of [fetch_from_cursor]
    replaces it by a list. *)
Inductive row :=
| RTuple (elems : list value)
| RList (elems : list value).

Definition elems (r : row) : list value :=
  match r with RTuple l | RList l => l end.

Definition convert_to_supported (val : value) : value :=
  match val with
  | VDecimal d => VFloat (float d)
  | VTimedelta t => VStr (str t)
  | _ => val
  end.

(** [type(elem) in TYPES_NEED_TO_CONVERT]. *)
Definition need_to_convert (elem : value) : bool :=
  match elem with
  | VDecimal _ | VTimedelta _ => true
  | _ => false
  end.

(** [l[i] = x] on a list; the loop below only writes at positions [enumerate]
    produced, so the out-of-range [IndexError] has no case here. *)
Fixpoint set_item (l : list value) (i : nat) (x : value) : list value :=
  match l, i with
  | [], _ => []
  | _ :: tl, O => x :: tl
  | hd :: tl, S j => hd :: set_item tl j x
  end.

(** [for i, elem in enumerate(row)]: [todo] is what is left of the row object
    [enumerate] was given, [i] the next index, [cur] the current binding of
    the variable [row]. *)
Fixpoint convert_loop (todo : list value) (i : nat) (cur : row) : row :=
  match todo with
  | [] => cur
  | elem :: rest =>
      let cur :=
        if need_to_convert elem
        then RList (set_item (elems cur) i (convert_to_supported elem))
        else cur in
      convert_loop rest (S i) cur
  end.

Definition convert_row (r : row) : row := convert_loop (elems r) 0 r.

(** [cursor.execute]'s second argument. *)
Inductive args :=
| Positional (l : list value)
| Named (d : list (string * value)).

Definition get_args (positional_args : option (list value))
    (named_args : option (list (string * value))) : option args :=
  if truthy_seq positional_args then option_map Positional positional_args
  else if truthy_seq named_args then option_map Named named_args
  else None.

Inductive event :=
| Connect
| Mogrify (query : option string) (a : option args)
| Execute (query : option string) (a : option args)
| Iterate
| CursorClose
| ConnClose.

(** The server seen through one connection; [iterate] is [for row in cursor],
    which yields the rows of the result set or raises. *)
Record driver := {
  server : Type;
  connect : server -> server * (raised + unit);
  mogrify : option string -> option args -> server -> server * (exn + string);
  execute : option string -> option args -> server -> server * (exn + unit);
  statusmessage : server -> option string;
  rowcount : server -> Z;
  iterate : server -> server * (exn + list row);
  cursor_close : server -> server * (exn + unit);
  conn_close : server -> server * (exn + unit)
}.

(** [module.params]. *)
Record params := {
  query : option string;
  positional_args : option (list value);
  named_args : option (list (string * value))
}.

(** The keys of the parameters the task supplied. *)
Definition supplied (p : params) : list string :=
  (if given (query p) then ["query"] else [])
  ++ (if given (positional_args p) then ["positional_args"] else [])
  ++ (if given (named_args p) then ["named_args"] else []).

(** The keyword arguments of [module.exit_json]. *)
Record result := {
  changed : bool;
  r_statusmessage : option string;
  r_rowcount : option Z;
  query_result : list row;
  r_query : string
}.

Section WithDriver.

Variable D : driver.

Record world := { srv : server D; trace : list event }.

Definition call {A} (ev : event) (op : server D -> server D * (exn + A))
  : M world A :=
  fun w =>
    let (s', r) := op (srv w) in
    ({| srv := s'; trace := trace w ++ [ev] |},
     match r with inl e => inl (Exn e) | inr a => inr a end).

(** Reading an attribute of the cursor. *)
Definition attr {A} (f : server D -> A) : M world A :=
  fun w => (w, inr (f (srv w))).

Definition fetch_from_cursor : M world (list row) :=
  rows <- call Iterate (iterate D) ;;
  ret (map convert_row rows).

(** The inner [try] of [execute]: [query_result] keeps its initial [[]] when
    a handler returns. *)
Definition fetch_rows : M world (list row) :=
  let query_result := [] in
  try_except fetch_from_cursor
    (fun e =>
       match cls e with
       | ProgrammingError =>
           if to_native e =? "no results to fetch"
           then ret query_result
           else ret query_result
       | OtherException =>
           fail_json ("Cannot fetch rows from cursor: " ++ to_native e)
       end).

Definition execute_ (query : option string) (a : option args)
  : M world (option string * option Z * string * list row) :=
  try_except
    (mogrified_query <- call (Mogrify query a) (mogrify D query a) ;;
     call (Execute query a) (execute D query a) ;;
     statusmessage <- attr (statusmessage D) ;;
     rowcount <- attr (rowcount D) ;;
     query_result <- fetch_rows ;;
     ret (statusmessage, Some rowcount, mogrified_query, query_result))
    (fun e =>
       fail_json ("Cannot execute query " ++ dquote ++ fmt_s query ++ dquote
                  ++ ": " ++ to_native e)).

(** From [get_args] to [exit_json]. *)
Definition job (p : params) : M world result :=
  let a := get_args (positional_args p) (named_args p) in
  res <- execute_ (query p) a ;;
  let '(statusmsg, rowcount, query, query_result) := res in
  try_except
    (call CursorClose (cursor_close D) ;; call ConnClose (conn_close D))
    (fun _ => ret tt) ;;
  ret {| changed := true;
         r_statusmessage := statusmsg;
         r_rowcount := rowcount;
         query_result := query_result;
         r_query := query |}.

Inductive outcome :=
| Exit_json (r : result)
| Aborted (r : raised).

(** One run of the module: the server afterwards, everything asked of the
    connection (nothing before [Connect]), and how the run ended. *)
Record run := {
  after : server D;
  asked : list event;
  ended : outcome
}.

Definition main (p : params) (s : server D) : run :=
  match Ansible.AnsibleModule [["positional_args"; "named_args"]] (supplied p) with
  | inl r => {| after := s; asked := []; ended := Aborted r |}
  | inr _ =>
      match connect D s with
      | (s1, inl r) => {| after := s1; asked := [Connect]; ended := Aborted r |}
      | (s1, inr _) =>
          match job p {| srv := s1; trace := [Connect] |} with
          | (w, inl r) => {| after := srv w; asked := trace w; ended := Aborted r |}
          | (w, inr res) => {| after := srv w; asked := trace w; ended := Exit_json res |}
          end
      end
  end.

End WithDriver.

End WithRuntime.

End Query.

(** ** Reference servers and a reference runtime, for running the modules *)

Module Sim.

(** *** A server that understands the four statements [cockroachdb_db] sends *)

Fixpoint strip_prefix (p s : string) : option string :=
  match p, s with
  | EmptyString, _ => Some s
  | String a p', String b s' =>
      if Ascii.eqb a b then strip_prefix p' s' else None
  | String _ _, EmptyString => None
  end.

(** The identifier up to the closing double quote, and what follows it. *)
Fixpoint quoted (s : string) : option (string * string) :=
  match s with
  | EmptyString => None
  | String c s' =>
      if Ascii.eqb c (ascii_of_nat 34) then Some (EmptyString, s')
      else match quoted s' with
           | Some (n, r) => Some (String c n, r)
           | None => None
           end
  end.

Fixpoint skip_spaces (s : string) : string :=
  match s with
  | String c s' => if Ascii.eqb c " "%char then skip_spaces s' else s
  | EmptyString => s
  end.

Inductive ddl :=
| ShowDatabases
| CreateDatabase (n : string) (o : option string)
| DropDatabase (n : string)
| AlterOwner (n o : string).

(** A role name: what is left of the statement, when there is something. *)
Definition role (s : string) : option string :=
  match s with
  | EmptyString => None
  | _ => Some s
  end.

(** A quoted identifier ends at its closing quote, so the lexer accepts a
    keyword right behind it. *)
Definition parse (q : string) : option ddl :=
  if q =? "SHOW DATABASES" then Some ShowDatabases else
  match strip_prefix ("CREATE DATABASE " ++ dquote) q with
  | Some rest =>
      match quoted rest with
      | Some (n, EmptyString) => Some (CreateDatabase n None)
      | Some (n, tl) =>
          match strip_prefix "OWNER " (skip_spaces tl) with
          | Some o => option_map (fun o => CreateDatabase n (Some o)) (role o)
          | None => None
          end
      | None => None
      end
  | None =>
  match strip_prefix ("DROP DATABASE " ++ dquote) q with
  | Some rest =>
      match quoted rest with
      | Some (n, EmptyString) => Some (DropDatabase n)
      | _ => None
      end
  | None =>
  match strip_prefix ("ALTER DATABASE " ++ dquote) q with
  | Some rest =>
      match quoted rest with
      | Some (n, tl) =>
          match strip_prefix "OWNER TO " (skip_spaces tl) with
          | Some o => option_map (AlterOwner n) (role o)
          | None => None
          end
      | None => None
      end
  | None => None
  end end end.

(** The catalog, and the rows the cursor holds. *)
Record db_server := {
  catalog : list Db.db_row;
  fetched : list Db.db_row
}.

Definition has (n : string) (cat : list Db.db_row) : bool :=
  existsb (fun d => Db.d_database_name d =? n) cat.

Definition new_row (n : string) (o : option string) : Db.db_row :=
  {| Db.d_database_name := n;
     Db.d_owner := match o with Some o => o | None => "root" end;
     Db.d_primary_region := None;
     Db.d_regions := [];
     Db.d_survival_goal := None |}.

Definition set_owner (n o : string) (d : Db.db_row) : Db.db_row :=
  if Db.d_database_name d =? n then
    {| Db.d_database_name := n;
       Db.d_owner := o;
       Db.d_primary_region := Db.d_primary_region d;
       Db.d_regions := Db.d_regions d;
       Db.d_survival_goal := Db.d_survival_goal d |}
  else d.

Definition sql_error (msg : string) : exn :=
  {| cls := ProgrammingError; to_native := msg |}.

Definition db_execute (q : string) (s : db_server) : db_server * (exn + unit) :=
  let cat := catalog s in
  match parse q with
  | Some ShowDatabases => ({| catalog := cat; fetched := cat |}, inr tt)
  | Some (CreateDatabase n o) =>
      if has n cat then (s, inl (sql_error "database already exists"))
      else ({| catalog := cat ++ [new_row n o]; fetched := [] |}, inr tt)
  | Some (DropDatabase n) =>
      if has n cat
      then ({| catalog := filter (fun d => negb (Db.d_database_name d =? n)) cat;
               fetched := [] |}, inr tt)
      else (s, inl (sql_error "database does not exist"))
  | Some (AlterOwner n o) =>
      if has n cat
      then ({| catalog := map (set_owner n o) cat; fetched := [] |}, inr tt)
      else (s, inl (sql_error "database does not exist"))
  | None => (s, inl (sql_error "syntax error"))
  end.

Definition db_driver : Db.driver :=
  {| Db.server := db_server;
     Db.connect := fun s => (s, inr tt);
     Db.execute := db_execute;
     Db.fetchall := fun s => (s, inr (fetched s));
     Db.cursor_close := fun s => (s, inr tt);
     Db.conn_close := fun s => (s, inr tt) |}.

(** A server with the given catalog and an idle cursor. *)
Definition serving (cat : list Db.db_row) : db_server :=
  {| catalog := cat; fetched := [] |}.

(** An invocation of [cockroachdb_db] on the database [nm], outside check
    mode. *)
Definition on_db (nm : string) (st : Db.state) (ow : option string) : Db.module :=
  {| Db.check_mode := false;
     Db.module_params := {| Db.p_name := nm; Db.p_state := st;
                            Db.p_owner := ow; Db.p_target := None |} |}.

Definition test_db : Db.state -> option string -> Db.module := on_db "test_db".

(** *** A runtime: finite decimals, binary64 floats, normalised timedeltas *)

(** [coefficient * 10 ^ exponent]. *)
Record sim_decimal := { coefficient : Z; exponent : Z }.

(** The nearest binary64 number, ties to even. *)
Definition sim_float (d : sim_decimal) : PrimFloat.float :=
  let neg := (coefficient d <? 0)%Z in
  SF2Prim
    match Z.abs (coefficient d) with
    | Zpos m =>
        if (0 <=? exponent d)%Z
        then binary_normalize 53 1024 (Zpos m * 10 ^ exponent d) 0 neg
        else SFdiv 53 1024 (S754_finite neg m 0)
                   (S754_finite false (Z.to_pos (10 ^ (- exponent d))) 0)
    | _ => S754_zero neg
    end.

(** [days], [0 <= seconds < 86400] and [0 <= microseconds < 1000000]. *)
Record sim_timedelta := { days : Z; seconds : Z; microseconds : Z }.

(** ['%d' % z]. *)
Definition fmt_d (z : Z) : string := NilZero.string_of_int (Z.to_int z).

Fixpoint zeros (n : nat) : string :=
  match n with
  | O => EmptyString
  | S n' => String "0"%char (zeros n')
  end.

(** ['%0<w>d' % z] for [0 <= z]. *)
Definition fmt_0d (w : nat) (z : Z) : string :=
  let s := fmt_d z in zeros (w - String.length s) ++ s.

(** [timedelta.__str__]. *)
Definition sim_str (t : sim_timedelta) : string :=
  let mm := (seconds t / 60)%Z in
  let ss := (seconds t mod 60)%Z in
  let hh := (mm / 60)%Z in
  let mm := (mm mod 60)%Z in
  let s := fmt_d hh ++ ":" ++ fmt_0d 2 mm ++ ":" ++ fmt_0d 2 ss in
  let s :=
    if (days t =? 0)%Z then s
    else fmt_d (days t) ++ " day"
         ++ (if (Z.abs (days t) =? 1)%Z then EmptyString else "s") ++ ", " ++ s in
  if (microseconds t =? 0)%Z then s
  else s ++ "." ++ fmt_0d 6 (microseconds t).

#[export] Instance python : Query.runtime :=
  {| Query.decimal := sim_decimal;
     Query.timedelta := sim_timedelta;
     Query.pyfloat := PrimFloat.float;
     Query.float := sim_float;
     Query.str := sim_str |}.

(** *** A server that answers from a script *)

(** What the server does with a statement it knows. *)
Inductive reply :=
| Rows (status : string) (rows : list Query.row)
| NoResultSet (status : string)
| ExecuteError (e : exn)
| IterateError (status : string) (e : exn).

(** For each statement text the server knows: its rendering with the
    parameters substituted, and the reply. [cursor] is the reply the cursor
    holds. *)
Record q_server := {
  script : list (string * (string * reply));
  cursor : option reply
}.

Fixpoint lookup {A : Type} (k : string) (l : list (string * A)) : option A :=
  match l with
  | [] => None
  | (k', a) :: tl => if k' =? k then Some a else lookup k tl
  end.

Definition type_error : exn :=
  {| cls := OtherException; to_native := "argument 1 must be a string or unicode object" |}.

Definition q_mogrify (q : option string) (a : option Query.args) (s : q_server)
  : q_server * (exn + string) :=
  match q with
  | None => (s, inl type_error)
  | Some text =>
      match lookup text (script s) with
      | Some (rendered, _) => (s, inr rendered)
      | None => (s, inr text)
      end
  end.

Definition q_execute (q : option string) (a : option Query.args) (s : q_server)
  : q_server * (exn + unit) :=
  match q with
  | None => (s, inl type_error)
  | Some text =>
      match lookup text (script s) with
      | Some (_, ExecuteError e) => (s, inl e)
      | Some (_, r) => ({| script := script s; cursor := Some r |}, inr tt)
      | None => (s, inl (sql_error "syntax error"))
      end
  end.

Definition q_statusmessage (s : q_server) : option string :=
  match cursor s with
  | Some (Rows st _) | Some (NoResultSet st) | Some (IterateError st _) => Some st
  | _ => None
  end.

Definition q_rowcount (s : q_server) : Z :=
  match cursor s with
  | Some (Rows _ rows) => Z.of_nat (length rows)
  | _ => (-1)%Z
  end.

Definition q_iterate (s : q_server) : q_server * (exn + list Query.row) :=
  match cursor s with
  | Some (Rows _ rows) => (s, inr rows)
  | Some (IterateError _ e) => (s, inl e)
  | _ => (s, inl (sql_error "no results to fetch"))
  end.

Definition q_driver : Query.driver :=
  {| Query.server := q_server;
     Query.connect := fun s => (s, inr tt);
     Query.mogrify := q_mogrify;
     Query.execute := q_execute;
     Query.statusmessage := q_statusmessage;
     Query.rowcount := q_rowcount;
     Query.iterate := q_iterate;
     Query.cursor_close := fun s => (s, inr tt);
     Query.conn_close := fun s => (s, inr tt) |}.

(** A server with the given script and an idle cursor. *)
Definition scripted (sc : list (string * (string * reply))) : q_server :=
  {| script := sc; cursor := None |}.

(** The statements of the runs below: a select with a decimal and an interval
    column, a statement without result set, and a select whose rows the
    driver fails to deliver. *)
Definition select_amounts : string := "SELECT amount, age FROM test".
Definition create_x : string := "CREATE DATABASE " ++ dquote ++ "x" ++ dquote.
Definition select_lost : string := "SELECT * FROM lost".

Definition amounts : list Query.row :=
  [Query.RTuple
     [Query.VInt 1;
      Query.VDecimal {| coefficient := 1250; exponent := -2 |};
      Query.VTimedelta {| days := 1; seconds := 7200; microseconds := 0 |}];
   Query.RTuple [Query.VInt 2; Query.VNone; Query.VNone]].

Definition demo : q_server :=
  scripted
    [(select_amounts, (select_amounts, Rows "SELECT 2" amounts));
     (create_x, (create_x, NoResultSet "CREATE DATABASE"));
     (select_lost,
      (select_lost,
       IterateError "SELECT 1"
         {| cls := ProgrammingError; to_native := "result set expired" |}))].

(** An invocation of [cockroachdb_query] without parameters. *)
Definition plain (q : string) : Query.params :=
  {| Query.query := Some q;
     Query.positional_args := None;
     Query.named_args := None |}.

(** The server of [db_driver] behind a connection helper that answers
    [conn], with a cursor whose [close()] answers [cc]. *)
Definition db_driver_with (conn : raised + unit) (cc : exn + unit) : Db.driver :=
  {| Db.server := db_server;
     Db.connect := fun s => (s, conn);
     Db.execute := db_execute;
     Db.fetchall := fun s => (s, inr (fetched s));
     Db.cursor_close := fun s => (s, cc);
     Db.conn_close := fun s => (s, inr tt) |}.


Definition connection_lost : exn :=
  {| cls := OtherException; to_native := "connection already closed" |}.



End Sim.

(** ** Vocabulary of the statements below *)

Module DbSpec.

Import Db.

(** The object [__init__] ends with when [SHOW DATABASES] returned [rows]. *)
Definition found (nm : string) (rows : list db_row) : database :=
  fold_left fetch_info_step rows (defaults nm).

(** What a new connection to [s] reads from the catalog, when nothing fails. *)
Definition listing (D : driver) (s : server D) : option (list db_row) :=
  match connect D s with
  | (s1, inr _) =>
      match execute D "SHOW DATABASES" s1 with
      | (s2, inr _) =>
          match fetchall D s2 with
          | (_, inr rows) => Some rows
          | (_, inl _) => None
          end
      | (_, inl _) => None
      end
  | (_, inl _) => None
  end.

(** The statement a run issues for the object it fetched, if any. *)
Definition plan (m : module) (db : database) : option string :=
  let p := module_params m in
  match p_state p with
  | present =>
      if negb (exists_ db) then Some (create_query m db)
      else if truthy_str (p_owner p)
           then Some (change_owner_query db (fmt_s (p_owner p)))
           else None
  | absent =>
      if exists_ db then Some (drop_query db) else None
  end.

(** Whether the catalog already is what [state] asks for. *)
Definition as_desired (st : state) (db : database) : bool :=
  match st with
  | present => exists_ db
  | absent => negb (exists_ db)
  end.

Definition is_close (ev : event) : bool :=
  match ev with
  | CursorClose | ConnClose => true
  | _ => false
  end.

(** Whether a row of the catalog is the one of the database [nm]. *)
Definition matches (nm : string) (d : db_row) : bool :=
  d_database_name d =? nm.

(** [l] is how [full] begins. *)
Definition is_prefix {A : Type} (l full : list A) : Prop :=
  exists rest, full = (l ++ rest)%list.

(** The statements executed besides the catalog read. *)
Definition statements_asked (tr : list event) : list string :=
  flat_map (fun ev =>
              match ev with
              | Execute q => if q =? "SHOW DATABASES" then [] else [q]
              | _ => []
              end) tr.

End DbSpec.

Module QuerySpec.

Import Query.

Definition is_close {R : runtime} (ev : event) : bool :=
  match ev with
  | CursorClose | ConnClose => true
  | _ => false
  end.

End QuerySpec.

(** ** Properties of [cockroachdb_db] *)

Section DbTheory.

Import Db DbSpec.

Variable D : driver.

#[local] Arguments create_query : simpl never.
#[local] Arguments drop_query : simpl never.
#[local] Arguments change_owner_query : simpl never.

Ltac db_unfold :=
  unfold main, job, init, fetch_info, create, drop, modify, change_owner,
    cursor_execute, cursor_fetchall, call, append_statement, bind, ret in *;
  cbn [srv trace executed_statements after asked ended] in *.

(** Case analysis on the next call of the driver. *)
Ltac db_call :=
  match goal with
  | |- context [connect D ?s] =>
      let E := fresh "Econn" in destruct (connect D s) as [? [?|[]]] eqn:E
  | |- context [execute D ?q ?s] =>
      let E := fresh "Eexec" in destruct (execute D q s) as [? [?|[]]] eqn:E
  | |- context [fetchall D ?s] =>
      let E := fresh "Efetch" in destruct (fetchall D s) as [? [?|?]] eqn:E
  | |- context [cursor_close D ?s] =>
      let E := fresh "Ecc" in destruct (cursor_close D s) as [? [?|[]]] eqn:E
  | |- context [conn_close D ?s] =>
      let E := fresh "Enc" in destruct (conn_close D s) as [? [?|[]]] eqn:E
  end; cbn [srv trace executed_statements after asked ended app].

Ltac db_params m cm st ow :=
  let nm := fresh "nm" in
  let tg := fresh "tg" in
  destruct m as [cm [nm st ow tg]];
  cbn [check_mode module_params p_name p_state p_owner p_target] in *.

Ltac db_fetched db :=
  match goal with
  | |- context [fold_left fetch_info_step ?l ?d] =>
      set (db := fold_left fetch_info_step l d) in *
  end.

Lemma create_query_not_show m db :
  (create_query m db =? "SHOW DATABASES") = false.
Proof. unfold create_query. destruct (truthy_str _); reflexivity. Qed.

Lemma drop_query_not_show db : (drop_query db =? "SHOW DATABASES") = false.
Proof. reflexivity. Qed.

Lemma change_owner_query_not_show db o :
  (change_owner_query db o =? "SHOW DATABASES") = false.
Proof. reflexivity. Qed.

(** What a run that reaches [exit_json] read, reported and asked last. *)
Lemma main_exit (m : module) (s : server D) (r : result) :
  ended D (main D m s) = Exit_json r ->
  exists rows,
    listing D s = Some rows /\
    let db := found (p_name (module_params m)) rows in
    changed r = given (plan m db) /\
    r_executed_statements r =
      (if check_mode m then []
       else match plan m db with Some q => [(q, [])] | None => [] end) /\
    exists pre,
      asked D (main D m s) = (pre ++ [CursorClose; ConnClose])%list /\
      existsb is_close pre = false.
Proof.
  unfold listing, plan, found. db_unfold.
  do 3 (db_call; try discriminate).
  db_params m cm st ow. intros H. eexists. split; [reflexivity|].
  db_fetched db.
  destruct st, (exists_ db), cm, (truthy_str ow); cbn in H |- *.
  all: repeat (db_call; cbn in H |- *; try discriminate).
  all: inversion H; subst; cbn.
  all: repeat split; trivial.
  all: match goal with
       | |- exists pre, ?l = _ /\ _ =>
           exists (removelast (removelast l)); split; reflexivity
       end.
Qed.

(** [__fetch_info] never changes the name of the object. *)
Lemma fetch_info_name (rows : list db_row) (self : database) :
  name (fold_left fetch_info_step rows self) = name self.
Proof.
  revert self. induction rows as [|d rows IH]; intros self; simpl.
  - reflexivity.
  - rewrite IH. unfold fetch_info_step. now destruct (_ =? _).
Qed.

Lemma found_name (nm : string) (rows : list db_row) :
  name (found nm rows) = nm.
Proof. unfold found. now rewrite fetch_info_name. Qed.

(** With an owner given, an existing database is altered whoever owns it:
    neither the verdict nor the statement depends on [owner db]. *)
Lemma existing_database_with_owner_is_altered
    (m : module) (s : server D) (r : result) (rows : list db_row) :
  let p := module_params m in
  let db := found (p_name p) rows in
  ended D (main D m s) = Exit_json r ->
  listing D s = Some rows ->
  p_state p = present -> check_mode m = false ->
  exists_ db = true -> truthy_str (p_owner p) = true ->
  changed r = true
  /\ r_executed_statements r
     = [("ALTER DATABASE " ++ dquote ++ p_name p ++ dquote ++ " OWNER TO "
         ++ fmt_s (p_owner p), [])].
Proof.
  cbv zeta. intros H Hl Hst Hcm Hex Hov.
  apply main_exit in H. destruct H as (rows' & Hl' & Hc & Hs & _).
  rewrite Hl in Hl'. injection Hl' as <-. cbn zeta in Hc, Hs.
  unfold plan in Hc, Hs. rewrite Hst, Hex, Hov in Hc, Hs. rewrite Hcm in Hs.
  cbn in Hc, Hs. unfold change_owner_query in Hs. rewrite found_name in Hs.
  auto.
Qed.

Lemma string_app_assoc (a b c : string) : (a ++ b) ++ c = a ++ (b ++ c).
Proof.
  induction a as [|ch a IH]; simpl.
  - reflexivity.
  - now rewrite IH.
Qed.

(** With an owner given, [create] puts [OWNER] right behind the closing
    quote of the name. *)
Lemma create_query_with_owner (m : module) (db : database) :
  truthy_str (p_owner (module_params m)) = true ->
  create_query m db
  = "CREATE DATABASE " ++ dquote ++ name db ++ dquote ++ "OWNER "
    ++ fmt_s (p_owner (module_params m)).
Proof.
  intros H. unfold create_query. rewrite H.
  now rewrite !string_app_assoc.
Qed.

(** Whether a statement is planned does not depend on check mode. *)
Lemma plan_given_check_mode (p : params) (db : database) (c1 c2 : bool) :
  given (plan {| check_mode := c1; module_params := p |} db)
  = given (plan {| check_mode := c2; module_params := p |} db).
Proof.
  unfold plan; cbn. destruct (p_state p), (exists_ db), (truthy_str (p_owner p));
    reflexivity.
Qed.

(** In check mode the only statement a run executes is the catalog read. *)
Lemma check_mode_statements_asked (p : params) (s : server D) :
  statements_asked
    (asked D (main D {| check_mode := true; module_params := p |} s)) = [].
Proof.
  db_unfold.
  do 3 (db_call; [reflexivity|]).
  destruct p as [nm st ow tg];
    cbn [check_mode module_params p_name p_state p_owner p_target] in *.
  db_fetched db.
  destruct st, (exists_ db), (truthy_str ow); cbn.
  all: repeat (db_call; cbn; try reflexivity).
Qed.

(** C4: in check mode, for every state of the catalog and every parameter
    set, the run executes no statement besides the catalog read, reports an
    empty list of executed statements, and reports the [changed] verdict the
    same invocation reports outside check mode. *)
Theorem check_mode_changes_nothing (p : params) (s : server D) :
  let dry := main D {| check_mode := true; module_params := p |} s in
  let wet := main D {| check_mode := false; module_params := p |} s in
  statements_asked (asked D dry) = []
  /\ (forall r, ended D dry = Exit_json r -> r_executed_statements r = [])
  /\ (forall r r', ended D dry = Exit_json r -> ended D wet = Exit_json r' ->
                   changed r = changed r').
Proof.
  cbv zeta. split; [apply check_mode_statements_asked|]. split.
  - intros r H. apply main_exit in H. destruct H as (rows & _ & _ & H & _).
    exact H.
  - intros r r' Hd Hw.
    apply main_exit in Hd. destruct Hd as (rows & Hl & Hc & _).
    apply main_exit in Hw. destruct Hw as (rows' & Hl' & Hc' & _).
    rewrite Hl in Hl'. injection Hl' as <-.
    cbn in Hc, Hc'. rewrite Hc, Hc'. apply plan_given_check_mode.
Qed.

(** C2, as amended: with [state=absent], or with [state=present] and no owner
    requested, on a server whose catalog a new connection finds as the first
    run was to leave it, the second of two successive runs reports
    [changed=false] and no executed statement; the first run reports
    [changed=true] exactly when the catalog was not already as desired. *)
Theorem second_run_reports_no_change
    (m : module) (s : server D) (r1 r2 : result) (rows1 rows2 : list db_row) :
  let p := module_params m in
  let run1 := main D m s in
  let run2 := main D m (after D run1) in
  p_state p = absent \/ truthy_str (p_owner p) = false ->
  listing D s = Some rows1 ->
  ended D run1 = Exit_json r1 ->
  listing D (after D run1) = Some rows2 ->
  as_desired (p_state p) (found (p_name p) rows2) = true ->
  ended D run2 = Exit_json r2 ->
  changed r1 = negb (as_desired (p_state p) (found (p_name p) rows1))
  /\ changed r2 = false
  /\ r_executed_statements r2 = [].
Proof.
  cbv zeta. intros Hp Hl1 H1 Hl2 Hd H2.
  apply main_exit in H1. destruct H1 as (rows & Hl & Hc1 & _).
  rewrite Hl1 in Hl. injection Hl as <-.
  apply main_exit in H2. destruct H2 as (rows' & Hl' & Hc2 & Hs2 & _).
  rewrite Hl2 in Hl'. injection Hl' as <-.
  cbn zeta in Hc1, Hc2, Hs2. rewrite Hc1, Hc2, Hs2.
  unfold plan, as_desired in *.
  destruct (p_state (module_params m)).
  - destruct Hp as [Hp|Hp]; [discriminate|]. rewrite Hp, Hd.
    destruct (exists_ (found _ rows1)), (check_mode m); auto.
  - apply negb_true_iff in Hd. rewrite Hd.
    destruct (exists_ (found _ rows1)), (check_mode m); auto.
Qed.

(** C10: the [target] parameter has no effect: two invocations that differ
    only in its value run identically (same calls, same server afterwards,
    same result). *)
Theorem target_is_ignored
    (cm : bool) (nm : string) (st : state) (ow t1 t2 : option string)
    (s : server D) :
  main D {| check_mode := cm;
            module_params := {| p_name := nm; p_state := st;
                                p_owner := ow; p_target := t1 |} |} s
  = main D {| check_mode := cm;
              module_params := {| p_name := nm; p_state := st;
                                  p_owner := ow; p_target := t2 |} |} s.
Proof. reflexivity. Qed.


(** *** What [__fetch_info] finds *)

Lemma fetch_info_no_match (nm : string) (rows : list db_row) (self : database) :
  name self = nm -> existsb (matches nm) rows = false ->
  fold_left fetch_info_step rows self = self.
Proof.
  revert self. induction rows as [|d rows IH]; intros self Hn H; simpl in *.
  - reflexivity.
  - apply orb_false_iff in H. destruct H as [Hd Hr].
    unfold fetch_info_step at 2. unfold matches in Hd. rewrite Hn, Hd.
    now apply IH.
Qed.

Lemma fetch_info_exists (nm : string) (rows : list db_row) (self : database) :
  name self = nm ->
  exists_ (fold_left fetch_info_step rows self)
  = exists_ self || existsb (matches nm) rows.
Proof.
  revert self. induction rows as [|d rows IH]; intros self Hn; simpl.
  - now rewrite orb_false_r.
  - rewrite IH.
    + unfold fetch_info_step, matches. rewrite Hn.
      destruct (d_database_name d =? nm); simpl.
      * now rewrite orb_true_r.
      * reflexivity.
    + unfold fetch_info_step. now destruct (_ =? _).
Qed.

(** X1: the object is marked existing exactly when some row of the listing
    carries its name (compared exactly, case included); when none does, every
    field keeps its default. *)
Theorem fetch_info_exists_iff_listed (nm : string) (rows : list db_row) :
  exists_ (found nm rows) = existsb (matches nm) rows
  /\ (exists_ (found nm rows) = false -> found nm rows = defaults nm).
Proof.
  unfold found. rewrite (fetch_info_exists nm) by reflexivity. split.
  - reflexivity.
  - intros H. now apply (fetch_info_no_match nm).
Qed.

(** X2: when several rows carry the name, the fields are those of the last
    one. *)
Theorem fetch_info_takes_last_match
    (nm : string) (pre post : list db_row) (d : db_row) :
  d_database_name d = nm ->
  existsb (matches nm) post = false ->
  found nm (pre ++ d :: post)
  = {| name := nm; exists_ := true;
       primary_region := d_primary_region d;
       regions := d_regions d;
       survive_failure := d_survival_goal d;
       owner := Some (d_owner d) |}.
Proof.
  intros Hd Hpost. unfold found. rewrite fold_left_app. simpl.
  rewrite (fetch_info_no_match nm).
  - unfold fetch_info_step. rewrite fetch_info_name. simpl.
    rewrite Hd, String.eqb_refl. reflexivity.
  - unfold fetch_info_step. rewrite fetch_info_name. simpl.
    now rewrite Hd, String.eqb_refl.
  - exact Hpost.
Qed.

(** *** What a run executes and reports *)

(** X3: the [executed_statements] a run reports are, in order, exactly the
    statements it executed besides the catalog read, each with empty
    parameters. *)
Theorem reported_statements_are_those_executed
    (m : module) (s : server D) (r : result) :
  ended D (main D m s) = Exit_json r ->
  map fst (r_executed_statements r) = statements_asked (asked D (main D m s))
  /\ Forall (fun st => snd st = []) (r_executed_statements r).
Proof.
  db_unfold.
  do 3 (db_call; try discriminate).
  db_params m cm st ow. db_fetched db.
  destruct st, (exists_ db), cm, (truthy_str ow) eqn:Eo; cbn.
  all: repeat (db_call; cbn; try discriminate).
  all: intros H; inversion H; subst; cbn.
  all: rewrite ?create_query_not_show, ?drop_query_not_show,
         ?change_owner_query_not_show; cbn.
  all: split; [reflexivity | repeat constructor].
Qed.

(** X4: whatever happens, a run asks for the connection, then reads the
    catalog, then executes at most one further statement, then closes the
    cursor and the connection; it stops where a call fails. *)
Theorem at_most_one_statement_after_catalog_read (m : module) (s : server D) :
  exists ddl,
    (length ddl <= 1)%nat
    /\ is_prefix (asked D (main D m s))
         ([Connect; Execute "SHOW DATABASES"; Fetchall]
          ++ map Execute ddl ++ [CursorClose; ConnClose])%list.
Proof.
  unfold is_prefix. db_unfold.
  do 3 (db_call;
        [exists []; split; [cbn; lia | eexists; reflexivity]|]).
  db_params m cm st ow. db_fetched db.
  destruct st, (exists_ db), cm, (truthy_str ow); cbn.
  all: repeat (db_call; cbn).
  all: first
         [ exists []; split; [cbn; lia | eexists; reflexivity]
         | match goal with
           | |- context [Fetchall :: Execute ?q :: _] =>
               exists [q]; split; [cbn; lia | eexists; reflexivity]
           end ].
Qed.


(** X6: with [state=absent], outside check mode, a database the catalog
    lists is dropped by the one statement [DROP DATABASE "<name>"], and the
    run reports [changed=true]. *)
Theorem listed_database_is_dropped
    (m : module) (s : server D) (r : result) (rows : list db_row) :
  let p := module_params m in
  ended D (main D m s) = Exit_json r ->
  listing D s = Some rows ->
  p_state p = absent -> check_mode m = false ->
  exists_ (found (p_name p) rows) = true ->
  changed r = true
  /\ r_executed_statements r
     = [("DROP DATABASE " ++ dquote ++ p_name p ++ dquote, [])].
Proof.
  cbv zeta. intros H Hl Hst Hcm Hex.
  apply main_exit in H. destruct H as (rows' & Hl' & Hc & Hs & _).
  rewrite Hl in Hl'. injection Hl' as <-. cbn zeta in Hc, Hs.
  unfold plan in Hc, Hs. rewrite Hst, Hex in Hc, Hs. rewrite Hcm in Hs.
  cbn in Hc, Hs. unfold drop_query in Hs. rewrite found_name in Hs. auto.
Qed.

(** X7: with [state=present] and no owner given (absent or empty), outside
    check mode, a database the catalog does not list is created by the one
    statement [CREATE DATABASE "<name>"], and the run reports
    [changed=true]. *)
Theorem missing_database_is_created
    (m : module) (s : server D) (r : result) (rows : list db_row) :
  let p := module_params m in
  ended D (main D m s) = Exit_json r ->
  listing D s = Some rows ->
  p_state p = present -> check_mode m = false ->
  exists_ (found (p_name p) rows) = false ->
  truthy_str (p_owner p) = false ->
  changed r = true
  /\ r_executed_statements r
     = [("CREATE DATABASE " ++ dquote ++ p_name p ++ dquote, [])].
Proof.
  cbv zeta. intros H Hl Hst Hcm Hex Hov.
  apply main_exit in H. destruct H as (rows' & Hl' & Hc & Hs & _).
  rewrite Hl in Hl'. injection Hl' as <-. cbn zeta in Hc, Hs.
  unfold plan in Hc, Hs. rewrite Hst, Hex in Hc, Hs. rewrite Hcm in Hs.
  cbn in Hc, Hs. unfold create_query in Hs. rewrite Hov, found_name in Hs.
  auto.
Qed.

(** X8: an empty [owner] is no owner: the run is the one without the
    parameter. *)
Theorem empty_owner_is_no_owner
    (cm : bool) (nm : string) (st : state) (tg : option string) (s : server D) :
  main D {| check_mode := cm;
            module_params := {| p_name := nm; p_state := st;
                                p_owner := Some EmptyString;
                                p_target := tg |} |} s
  = main D {| check_mode := cm;
              module_params := {| p_name := nm; p_state := st;
                                  p_owner := None; p_target := tg |} |} s.
Proof. reflexivity. Qed.

(** X9: with [state=absent] the [owner] parameter has no effect. *)
Theorem owner_is_ignored_when_absent
    (cm : bool) (nm : string) (o1 o2 tg : option string) (s : server D) :
  main D {| check_mode := cm;
            module_params := {| p_name := nm; p_state := absent;
                                p_owner := o1; p_target := tg |} |} s
  = main D {| check_mode := cm;
              module_params := {| p_name := nm; p_state := absent;
                                  p_owner := o2; p_target := tg |} |} s.
Proof. reflexivity. Qed.

(** X10: an exception of [cursor.close()] after the statement was executed
    ends the run with that exception: nothing is reported and the connection
    is not closed. *)
Theorem close_error_hides_executed_statement
    (m : module) (s s1 s2 s3 s4 s5 : server D) (rows : list db_row)
    (q : string) (e : exn) :
  connect D s = (s1, inr tt) ->
  execute D "SHOW DATABASES" s1 = (s2, inr tt) ->
  fetchall D s2 = (s3, inr rows) ->
  check_mode m = false ->
  plan m (found (p_name (module_params m)) rows) = Some q ->
  execute D q s3 = (s4, inr tt) ->
  cursor_close D s4 = (s5, inl e) ->
  main D m s
  = {| after := s5;
       asked := [Connect; Execute "SHOW DATABASES"; Fetchall; Execute q;
                 CursorClose];
       ended := Aborted (Exn e) |}.
Proof.
  intros Hc Hs Hf Hcm Hp Hq Hcc. unfold plan, found in Hp. db_unfold.
  rewrite Hc; cbn. rewrite Hs; cbn. rewrite Hf; cbn.
  db_params m cm st ow. subst cm. db_fetched db.
  destruct st, (exists_ db), (truthy_str ow); cbn in Hp |- *;
    try discriminate; injection Hp as <-.
  all: rewrite Hq; cbn; rewrite Hcc; reflexivity.
Qed.

End DbTheory.

(** ** Runs of [cockroachdb_db] against the reference server *)

Section DbRuns.

Import Db DbSpec.

(** C1: on a catalog where [test_db] exists and is owned by [root], a run
    with [state=present] and [owner=root] still executes
    [ALTER DATABASE ... OWNER TO root] and reports [changed=true]. *)
Example matching_owner_is_altered_again :
  let run := main Sim.db_driver (Sim.test_db present (Some "root"))
                  (Sim.serving [Sim.new_row "test_db" (Some "root")]) in
  let alter := "ALTER DATABASE " ++ dquote ++ "test_db" ++ dquote
               ++ " OWNER TO root" in
  owner (found "test_db" [Sim.new_row "test_db" (Some "root")]) = Some "root"
  /\ statements_asked (asked _ run) = [alter]
  /\ ended _ run = Exit_json {| changed := true;
                                r_executed_statements := [(alter, [])] |}.
Proof. repeat split. Qed.

(** C2, as stated, fails: with [state=absent] on a catalog that does not
    list the database, the first run already reports [changed=false]. *)
Example first_run_may_report_no_change :
  ended _ (main Sim.db_driver (Sim.test_db absent None) (Sim.serving []))
  = Exit_json {| changed := false; r_executed_statements := [] |}.
Proof. reflexivity. Qed.

(** The amended C2 at [state=present] without owner on an empty catalog:
    [changed=true], then [changed=false]. *)
Lemma second_run_reports_no_change_witness :
  let m := Sim.test_db present None in
  let run1 := main Sim.db_driver m (Sim.serving []) in
  let run2 := main Sim.db_driver m (after _ run1) in
  exists r1 r2,
    ended _ run1 = Exit_json r1 /\ ended _ run2 = Exit_json r2
    /\ changed r1 = true /\ changed r2 = false
    /\ r_executed_statements r2 = [].
Proof.
  cbv zeta. eexists. eexists.
  split; [reflexivity|]. split; [reflexivity|].
  apply (second_run_reports_no_change Sim.db_driver (Sim.test_db present None)
           (Sim.serving []) _ _ [] [Sim.new_row "test_db" None]).
  - right. reflexivity.
  - reflexivity.
  - reflexivity.
  - reflexivity.
  - reflexivity.
  - reflexivity.
Defined.

(** C3: creating [test_db] with owner [bob] executes a statement in which
    [OWNER] follows the closing quote of the name directly. *)
Example create_with_owner_has_no_separator :
  let run := main Sim.db_driver (Sim.test_db present (Some "bob")) (Sim.serving []) in
  let create := "CREATE DATABASE " ++ dquote ++ "test_db" ++ dquote
                ++ "OWNER bob" in
  statements_asked (asked _ run) = [create]
  /\ ended _ run = Exit_json {| changed := true;
                                r_executed_statements := [(create, [])] |}.
Proof. repeat split. Qed.

End DbRuns.

(** ** Properties of [cockroachdb_query] *)

Section QueryTheory.

Import Query QuerySpec.

Context {R : runtime}.

Lemma convert_unneeded (v : value) :
  need_to_convert v = false -> convert_to_supported v = v.
Proof. destruct v; simpl; intros H; try reflexivity; discriminate. Qed.

Lemma set_item_app (pre tl : list value) (x y : value) :
  set_item (pre ++ x :: tl) (length pre) y = (pre ++ y :: tl)%list.
Proof.
  induction pre as [|a pre IH]; simpl.
  - reflexivity.
  - now rewrite IH.
Qed.

(** The loop invariant: the positions before [i] are converted, the others
    are as [enumerate] will yield them. *)
Lemma convert_loop_elems (todo pre : list value) (cur : row) :
  elems cur = (pre ++ todo)%list ->
  elems (convert_loop todo (length pre) cur)
  = (pre ++ map convert_to_supported todo)%list.
Proof.
  revert pre cur. induction todo as [|elem rest IH]; intros pre cur H; simpl.
  - now rewrite app_nil_r in *.
  - replace (S (length pre))
      with (length (pre ++ [convert_to_supported elem])%list)
      by (rewrite length_app; simpl; lia).
    rewrite IH.
    + now rewrite <- app_assoc.
    + rewrite <- app_assoc. simpl.
      destruct (need_to_convert elem) eqn:E.
      * simpl. rewrite H. apply set_item_app.
      * rewrite (convert_unneeded _ E). exact H.
Qed.

Lemma convert_row_elems (r : row) :
  elems (convert_row r) = map convert_to_supported (elems r).
Proof. exact (convert_loop_elems (elems r) [] r eq_refl). Qed.

Variable D : driver.

(** C6: [convert_to_supported] maps a decimal to [float] of it, a timedelta
    to [str] of it and any other value to itself; [fetch_from_cursor] returns
    every row the cursor yields, in order, with every element so mapped. *)
Theorem rows_are_normalized_elementwise :
  (forall d, convert_to_supported (VDecimal d) = VFloat (float d))
  /\ (forall t, convert_to_supported (VTimedelta t) = VStr (str t))
  /\ (forall v, (forall d, v <> VDecimal d) -> (forall t, v <> VTimedelta t) ->
                convert_to_supported v = v)
  /\ (forall w w' rows,
        call D Iterate (iterate D) w = (w', inr rows) ->
        exists out,
          fetch_from_cursor D w = (w', inr out)
          /\ map elems out
             = map (fun r => map convert_to_supported (elems r)) rows).
Proof.
  repeat split.
  - intros v Hd Ht. destruct v; try reflexivity.
    + now destruct (Hd d).
    + now destruct (Ht t).
  - intros w w' rows H. exists (map convert_row rows). split.
    + unfold fetch_from_cursor, bind, ret. now rewrite H.
    + rewrite map_map. apply map_ext. exact convert_row_elems.
Qed.

Ltac q_unfold :=
  unfold main, job, execute_, fetch_rows, fetch_from_cursor, attr, call,
    try_except, fail_json, raise, bind, ret in *;
  cbn [srv trace after asked ended] in *.

(** Case analysis on the next call of the driver. *)
Ltac q_call :=
  match goal with
  | |- context [connect D ?s] =>
      let E := fresh "Econn" in destruct (connect D s) as [? [?|[]]] eqn:E
  | |- context [mogrify D ?q ?a ?s] =>
      let E := fresh "Emog" in destruct (mogrify D q a s) as [? [?|?]] eqn:E
  | |- context [execute D ?q ?a ?s] =>
      let E := fresh "Eexec" in destruct (execute D q a s) as [? [?|[]]] eqn:E
  | |- context [iterate D ?s] =>
      let E := fresh "Eiter" in destruct (iterate D s) as [? [[[] ?]|?]] eqn:E
  | |- context [cursor_close D ?s] =>
      let E := fresh "Ecc" in destruct (cursor_close D s) as [? [?|[]]] eqn:E
  | |- context [conn_close D ?s] =>
      let E := fresh "Enc" in destruct (conn_close D s) as [? [?|[]]] eqn:E
  end; cbn [srv trace after asked ended app cls to_native].

(** The inner [try] of [execute]: rows come back converted; a
    [ProgrammingError] of any text leaves [query_result] empty; any other
    exception ends in [fail_json]. *)
Lemma fetch_rows_cases (w : world D) :
  match call D Iterate (iterate D) w with
  | (w', inr rows) => fetch_rows D w = (w', inr (map convert_row rows))
  | (w', inl (Exn {| cls := ProgrammingError |})) =>
      fetch_rows D w = (w', inr [])
  | (w', inl (Exn {| cls := OtherException; to_native := msg |})) =>
      fetch_rows D w
      = (w', inl (Fail_json ("Cannot fetch rows from cursor: " ++ msg)))
  | (w', inl (Fail_json msg)) => fetch_rows D w = (w', inl (Fail_json msg))
  end.
Proof.
  unfold fetch_rows, fetch_from_cursor, try_except, bind, ret, fail_json, raise.
  destruct (call D Iterate (iterate D) w) as [w' [[[[] msg]|msg]|rows]];
    try reflexivity.
  cbn. now destruct (msg =? _).
Qed.

(** C7: when both [positional_args] and [named_args] are supplied, the run
    ends in [fail_json] with nothing asked of the connection (no connect, no
    statement) and the server as it was. *)
Theorem both_args_rejected_before_connect
    (q : option string) (pa : list value) (na : list (string * value))
    (s : server D) :
  main D {| query := q; positional_args := Some pa; named_args := Some na |} s
  = {| after := s; asked := [];
       ended := Aborted (Fail_json
         "parameters are mutually exclusive: positional_args|named_args") |}.
Proof. destruct q; reflexivity. Qed.

(** How a run ends and what it asked about closing: a run that reaches
    [exit_json] reports [changed=True] and asked last for the cursor to be
    closed and, unless that raised, for the connection to be closed; an
    aborted run asked for neither. *)
Lemma main_cases (p : params) (s : server D) :
  match ended D (main D p s) with
  | Exit_json r =>
      changed r = true
      /\ exists pre,
           existsb is_close pre = false
           /\ (asked D (main D p s) = (pre ++ [CursorClose; ConnClose])%list
               \/ asked D (main D p s) = (pre ++ [CursorClose])%list)
  | Aborted _ => existsb is_close (asked D (main D p s)) = false
  end.
Proof.
  q_unfold.
  destruct (Ansible.AnsibleModule _ _); [reflexivity|].
  q_call; [reflexivity|].
  q_call; [reflexivity|].
  q_call; [reflexivity|].
  q_call; try (cbn; reflexivity).
  - cbn. destruct (_ =? _); cbn.
    all: repeat (q_call; cbn).
    all: split; [reflexivity|].
    all: match goal with
         | |- exists pre, _ /\ (?l = (_ ++ [_; _])%list \/ ?l = (_ ++ [_])%list) =>
             first [ exists (removelast (removelast l)); split;
                     [reflexivity | left; reflexivity]
                   | exists (removelast l); split;
                     [reflexivity | right; reflexivity] ]
         end.
  - cbn. repeat (q_call; cbn).
    all: split; [reflexivity|].
    all: match goal with
         | |- exists pre, _ /\ (?l = (_ ++ [_; _])%list \/ ?l = (_ ++ [_])%list) =>
             first [ exists (removelast (removelast l)); split;
                     [reflexivity | left; reflexivity]
                   | exists (removelast l); split;
                     [reflexivity | right; reflexivity] ]
         end.
Qed.

(** C8: every run that reaches [exit_json] reports [changed=True], whatever
    the query. *)
Theorem completed_query_reports_changed
    (p : params) (s : server D) (r : result) :
  ended D (main D p s) = Exit_json r -> changed r = true.
Proof.
  intros H. pose proof (main_cases p s) as C. rewrite H in C. apply C.
Qed.

(** *** Choosing the payload *)

(** X11: [get_args] hands over the positional arguments when there are some,
    else the named ones when there are some, else nothing; an empty list or
    dict is never passed on. *)
Theorem get_args_never_empty
    (pa : option (list value)) (na : option (list (string * value))) :
  match get_args pa na with
  | Some (Positional l) => pa = Some l /\ l <> []
  | Some (Named d) => na = Some d /\ d <> [] /\ truthy_seq pa = false
  | None => truthy_seq pa = false /\ truthy_seq na = false
  end.
Proof.
  unfold get_args.
  destruct pa as [[|v l]|], na as [[|b d]|]; cbn; repeat split; discriminate.
Qed.

(** *** Rows *)

Lemma map_convert_unneeded (l : list value) :
  existsb need_to_convert l = false -> map convert_to_supported l = l.
Proof.
  induction l as [|v l IH]; simpl; intros H.
  - reflexivity.
  - apply orb_false_iff in H. destruct H as [Hv Hl].
    now rewrite (convert_unneeded _ Hv), IH.
Qed.

Lemma convert_loop_kind (todo pre : list value) (cur : row) :
  elems cur = (pre ++ todo)%list ->
  convert_loop todo (length pre) cur
  = if existsb need_to_convert todo
    then RList (pre ++ map convert_to_supported todo)
    else cur.
Proof.
  revert pre cur. induction todo as [|elem rest IH]; intros pre cur H; simpl.
  - reflexivity.
  - replace (S (length pre))
      with (length (pre ++ [convert_to_supported elem])%list)
      by (rewrite length_app; simpl; lia).
    destruct (need_to_convert elem) eqn:E; simpl.
    + rewrite IH.
      * rewrite <- app_assoc. simpl.
        destruct (existsb need_to_convert rest) eqn:Er; [reflexivity|].
        rewrite H, set_item_app. now rewrite (map_convert_unneeded _ Er).
      * simpl. rewrite H, set_item_app. now rewrite <- app_assoc.
    + rewrite IH.
      * now rewrite <- app_assoc.
      * rewrite (convert_unneeded _ E), <- app_assoc. exact H.
Qed.

Lemma convert_row_kind (r : row) :
  convert_row r
  = if existsb need_to_convert (elems r)
    then RList (map convert_to_supported (elems r))
    else r.
Proof. exact (convert_loop_kind (elems r) [] r eq_refl). Qed.

(** X12: a row without a decimal or an interval is returned as the driver
    gave it (still the tuple); a row with one is returned as a list of the
    converted values. *)
Theorem convert_row_keeps_plain_rows (r : row) :
  convert_row r
  = if existsb need_to_convert (elems r)
    then RList (map convert_to_supported (elems r))
    else r.
Proof.
  destruct (existsb need_to_convert (elems r)) eqn:E;
    rewrite convert_row_kind, E; reflexivity.
Qed.

Lemma converted_needs_no_conversion (v : value) :
  need_to_convert (convert_to_supported v) = false.
Proof. now destruct v. Qed.

(** X13: a converted row holds no decimal and no interval any more, and
    converting it again changes nothing. *)
Theorem converted_rows_are_supported (r : row) :
  existsb need_to_convert (elems (convert_row r)) = false
  /\ convert_row (convert_row r) = convert_row r.
Proof.
  assert (H : existsb need_to_convert (elems (convert_row r)) = false).
  { rewrite convert_row_elems. induction (elems r) as [|v l IH]; simpl.
    - reflexivity.
    - now rewrite converted_needs_no_conversion, IH. }
  split; [exact H|].
  rewrite (convert_row_kind (convert_row r)). now rewrite H.
Qed.

(** *** Runs *)


(** X14: whatever happens, a run renders the statement, executes it once
    with the same query and payload, iterates the cursor once, and closes the
    cursor and the connection, in this order; it stops where it fails. *)
Theorem query_is_executed_at_most_once (p : params) (s : server D) :
  let a := get_args (positional_args p) (named_args p) in
  DbSpec.is_prefix (asked D (main D p s))
    [Connect; Mogrify (query p) a; Execute (query p) a; Iterate;
     CursorClose; ConnClose].
Proof.
  cbv zeta. unfold DbSpec.is_prefix. q_unfold.
  destruct (Ansible.AnsibleModule _ _); [eexists; reflexivity|].
  do 3 (q_call; [eexists; reflexivity|]).
  q_call; cbn.
  - destruct (_ =? _); cbn; repeat (q_call; cbn); eexists; reflexivity.
  - eexists; reflexivity.
  - repeat (q_call; cbn); eexists; reflexivity.
Qed.






End QueryTheory.

(** ** Runs of [cockroachdb_query] against the reference server *)

Section QueryRuns.

Import Query QuerySpec.

(** C5: when iterating the cursor raises a [ProgrammingError] whose text is
    not [no results to fetch], the run neither fails nor reports the error:
    it closes the session and exits with an empty [query_result]. *)
Example other_programming_error_is_swallowed :
  let run := main Sim.q_driver (Sim.plain Sim.select_lost) Sim.demo in
  Sim.q_iterate (after _ run)
  = (after _ run,
     inl {| cls := ProgrammingError; to_native := "result set expired" |})
  /\ asked _ run
     = [Connect; Mogrify (Some Sim.select_lost) None;
        Execute (Some Sim.select_lost) None; Iterate; CursorClose; ConnClose]
  /\ ended _ run
     = Exit_json {| changed := true;
                    r_statusmessage := Some "SELECT 1";
                    r_rowcount := Some (-1)%Z;
                    query_result := [];
                    r_query := Sim.select_lost |}.
Proof. repeat split. Qed.

(** A statement without result set gives an empty [query_result] and no
    failure. *)
Example no_result_set_is_tolerated :
  ended _ (main Sim.q_driver (Sim.plain Sim.create_x) Sim.demo)
  = Exit_json {| changed := true;
                 r_statusmessage := Some "CREATE DATABASE";
                 r_rowcount := Some (-1)%Z;
                 query_result := [];
                 r_query := Sim.create_x |}.
Proof. reflexivity. Qed.

(** The decimal [12.50] becomes the float [12.5], the interval of one day and
    two hours becomes its string, and the other values stay. *)
Example amounts_are_normalized :
  exists r,
    ended _ (main Sim.q_driver (Sim.plain Sim.select_amounts) Sim.demo)
    = Exit_json r
    /\ map elems (query_result r)
       = [[VInt 1; VFloat (R:=Sim.python) 12.5%float; VStr "1 day, 2:00:00"];
          [VInt 2; VNone; VNone]].
Proof. eexists. split; reflexivity. Qed.

(** C8 on a pure read. *)
Lemma completed_query_reports_changed_witness :
  exists r,
    ended _ (main Sim.q_driver (Sim.plain Sim.select_amounts) Sim.demo)
    = Exit_json r
    /\ changed r = true.
Proof.
  eexists. split; [reflexivity|].
  apply (completed_query_reports_changed Sim.q_driver
           (Sim.plain Sim.select_amounts) Sim.demo).
  reflexivity.
Defined.

End QueryRuns.

(** ** Closing the session *)



(** ** Further runs against the reference servers *)

Section MoreDbRuns.

Import Db DbSpec.

Lemma fetch_info_takes_last_match_witness :
  found "test_db"
    [Sim.new_row "test_db" (Some "alice"); Sim.new_row "Test_db" (Some "carol");
     Sim.new_row "test_db" (Some "bob"); Sim.new_row "other" None]
  = {| name := "test_db"; exists_ := true; primary_region := None;
       regions := []; survive_failure := None; owner := Some "bob" |}.
Proof.
  apply (fetch_info_takes_last_match "test_db"
           [Sim.new_row "test_db" (Some "alice");
            Sim.new_row "Test_db" (Some "carol")]
           [Sim.new_row "other" None]
           (Sim.new_row "test_db" (Some "bob"))); reflexivity.
Defined.

Lemma reported_statements_are_those_executed_witness :
  let run := main Sim.db_driver (Sim.test_db absent None)
                  (Sim.serving [Sim.new_row "test_db" None]) in
  exists r,
    ended _ run = Exit_json r
    /\ map fst (r_executed_statements r) = statements_asked (asked _ run)
    /\ Forall (fun st => snd st = []) (r_executed_statements r).
Proof.
  cbv zeta. eexists. split; [reflexivity|].
  apply (reported_statements_are_those_executed Sim.db_driver
           (Sim.test_db absent None) (Sim.serving [Sim.new_row "test_db" None])).
  reflexivity.
Defined.


Lemma listed_database_is_dropped_witness :
  exists r,
    ended _ (main Sim.db_driver (Sim.test_db absent None)
                  (Sim.serving [Sim.new_row "test_db" None]))
    = Exit_json r
    /\ changed r = true
    /\ r_executed_statements r
       = [("DROP DATABASE " ++ dquote ++ "test_db" ++ dquote, [])].
Proof.
  eexists. split; [reflexivity|].
  apply (listed_database_is_dropped Sim.db_driver (Sim.test_db absent None)
           (Sim.serving [Sim.new_row "test_db" None]) _
           [Sim.new_row "test_db" None]); reflexivity.
Defined.

Lemma missing_database_is_created_witness :
  exists r,
    ended _ (main Sim.db_driver (Sim.test_db present (Some EmptyString))
                  (Sim.serving [Sim.new_row "other" None]))
    = Exit_json r
    /\ changed r = true
    /\ r_executed_statements r
       = [("CREATE DATABASE " ++ dquote ++ "test_db" ++ dquote, [])].
Proof.
  eexists. split; [reflexivity|].
  apply (missing_database_is_created Sim.db_driver
           (Sim.test_db present (Some EmptyString))
           (Sim.serving [Sim.new_row "other" None]) _
           [Sim.new_row "other" None]); reflexivity.
Defined.

Lemma close_error_hides_executed_statement_witness :
  let stuck := Sim.db_driver_with (inr tt) (inl Sim.connection_lost) in
  let run := main stuck (Sim.test_db absent None)
                  (Sim.serving [Sim.new_row "test_db" None]) in
  Sim.catalog (after stuck run) = []
  /\ asked stuck run
     = [Connect; Execute "SHOW DATABASES"; Fetchall;
        Execute ("DROP DATABASE " ++ dquote ++ "test_db" ++ dquote);
        CursorClose]
  /\ ended stuck run = Aborted (Exn Sim.connection_lost).
Proof.
  cbv zeta.
  rewrite (close_error_hides_executed_statement
             (Sim.db_driver_with (inr tt) (inl Sim.connection_lost))
             (Sim.test_db absent None)
             (Sim.serving [Sim.new_row "test_db" None])
             (Sim.serving [Sim.new_row "test_db" None])
             {| Sim.catalog := [Sim.new_row "test_db" None];
                Sim.fetched := [Sim.new_row "test_db" None] |}
             {| Sim.catalog := [Sim.new_row "test_db" None];
                Sim.fetched := [Sim.new_row "test_db" None] |}
             (Sim.serving []) (Sim.serving [])
             [Sim.new_row "test_db" None]
             ("DROP DATABASE " ++ dquote ++ "test_db" ++ dquote)
             Sim.connection_lost
             eq_refl eq_refl eq_refl eq_refl eq_refl eq_refl eq_refl).
  repeat split.
Defined.

End MoreDbRuns.

Section MoreQueryRuns.

Import Query QuerySpec.






End MoreQueryRuns.
